(** * extract_prd.py: a docx-to-text extraction script

    A shallow embedding of [extract_prd.py].  The script checks that a fixed
    input path exists, asks python-docx for the document at that path, collects
    the text of every paragraph, joins the texts with a newline and writes the
    result to a fixed output path.

    Python text is modelled by [string], and a file by the text that
    text-mode reading and writing see in it; the file system, the open file
    handles and the observable events (decoder calls, file operations, console
    lines) live in an explicit [World] that the script threads through a small
    state-and-exception monad.  The python-docx decoder and the failures of
    the operating system are parameters of the model ([Env]). *)

From Stdlib Require Import Ascii String.
From stdpp Require Import gmap strings list fin_maps.

(** ** Text *)

(** The newline character and the one-character string ['\n']. *)
Definition nl : ascii := Ascii.ascii_of_nat 10.
Definition NL : string := String nl EmptyString.

(** [sep.join(l)] of Python: the elements of [l] with [sep] between
    neighbours. *)
Fixpoint str_join (sep : string) (l : list string) : string :=
  match l with
  | [] => EmptyString
  | [x] => x
  | x :: rest => x +:+ sep +:+ str_join sep rest
  end.

(** [s.split(c)] of Python for a one-character separator: the maximal
    pieces of [s] between occurrences of [c].  The result is never empty;
    the empty string splits into one empty piece. *)
Fixpoint str_split (c : ascii) (s : string) : list string :=
  match s with
  | EmptyString => [EmptyString]
  | String a s' =>
      if Ascii.eqb a c then EmptyString :: str_split c s'
      else match str_split c s' with
           | [] => [String a EmptyString]
           | piece :: pieces => String a piece :: pieces
           end
  end.

(** Number of occurrences of a character in a string. *)
Fixpoint count_char (c : ascii) (s : string) : nat :=
  match s with
  | EmptyString => 0
  | String a s' => (if Ascii.eqb a c then 1 else 0) + count_char c s'
  end.

(** A string that holds no newline. *)
Definition single_line (s : string) : Prop := count_char nl s = 0.

(** [s.startswith(p)] of Python. *)
Fixpoint starts_with (p s : string) : bool :=
  match p, s with
  | EmptyString, _ => true
  | String _ _, EmptyString => false
  | String a p', String b s' => Ascii.eqb a b && starts_with p' s'
  end.

(** [needle in hay] of Python on strings. *)
Fixpoint contains (needle hay : string) : bool :=
  starts_with needle hay ||
  match hay with
  | EmptyString => false
  | String _ hay' => contains needle hay'
  end.

(** The text asked for by the words of the specification: the first
    paragraph, then every further paragraph preceded by one newline. *)
Definition newline_separated (l : list string) : string :=
  match l with
  | [] => EmptyString
  | x :: rest => x +:+ foldr (fun p acc => NL +:+ p +:+ acc) EmptyString rest
  end.

(** ** Documents, as python-docx presents them *)

Record Paragraph := { text : string }.
Record DocumentObj := { paragraphs : list Paragraph }.

(** ** Exceptions and results *)

Inductive exn : Type := Exception (cls : string).

Inductive result (A : Type) : Type :=
| Ok (a : A)
| Raised (e : exn).
Arguments Ok {A} a.
Arguments Raised {A} e.

(** ** The world the script runs in *)

(** What an observer of a run can see, in the order it happened. *)
Inductive event : Type :=
| EvDecode (path : string)          (* docx.Document(path) was called *)
| EvOpen (path : string) (fd : nat) (* open(path, 'w') returned handle fd *)
| EvWrite (fd : nat) (data : string)
| EvClose (fd : nat)
| EvPrint (line : string).

Record World := mkWorld {
  files : gmap string string;   (* path to content *)
  handles : gmap nat string;    (* open handle to the path it writes *)
  events : list event
}.

(** The collaborators that the script does not contain: python-docx's
    parser, run on the bytes of a file, and the operating system's refusals.
    A failed write reports how many characters reached the file. *)
Record Env := mkEnv {
  decode : string -> result DocumentObj;
  open_fault : World -> string -> option exn;
  write_fault : World -> string -> string -> option (exn * nat)
}.

Definition log (ev : event) (w : World) : World :=
  mkWorld (files w) (handles w) (events w ++ [ev]).

(** The lines printed so far. *)
Definition console (w : World) : list string :=
  omap (fun ev => match ev with EvPrint line => Some line | _ => None end)
       (events w).

Definition is_decode (ev : event) : bool :=
  match ev with EvDecode _ => true | _ => false end.

Definition is_file_op (ev : event) : bool :=
  match ev with EvOpen _ _ | EvWrite _ _ | EvClose _ => true | _ => false end.

(** ** A state and exception monad *)

Definition M (A : Type) : Type := World -> result A * World.

Definition ret {A} (a : A) : M A := fun w => (Ok a, w).

Definition bind {A B} (m : M A) (k : A -> M B) : M B := fun w =>
  match m w with
  | (Ok a, w') => k a w'
  | (Raised e, w') => (Raised e, w')
  end.

Declare Scope py_scope.
Delimit Scope py_scope with py.
Notation "x <- m ;; k" := (bind m (fun x => k))
  (at level 100, m at next level, right associativity) : py_scope.
Notation "m ;;; k" := (bind m (fun _ => k))
  (at level 100, right associativity) : py_scope.
Open Scope py_scope.

(** ** Library calls *)

Section Script.
Context (E : Env).

(** [os.path.exists(path)] *)
Definition os_path_exists (path : string) : M bool := fun w =>
  (Ok (bool_decide (is_Some (files w !! path))), w).

(** [docx.Document(path)]: the library reads the file and parses it. *)
Definition docx_Document (path : string) : M DocumentObj := fun w =>
  let w' := log (EvDecode path) w in
  match files w !! path with
  | None => (Raised (Exception "PackageNotFoundError"), w')
  | Some bytes => (decode E bytes, w')
  end.

(** [open(path, 'w', encoding='utf-8')]: the file is created or truncated
    and a new handle is returned. *)
Definition open_w (path : string) : M nat := fun w =>
  match open_fault E w path with
  | Some e => (Raised e, w)
  | None =>
      let fd := fresh (dom (handles w)) in
      (Ok fd, mkWorld (<[path := EmptyString]> (files w))
                      (<[fd := path]> (handles w))
                      (events w ++ [EvOpen path fd]))
  end.

(** [f.write(data)]: the data goes after what the handle's file holds. *)
Definition file_write (fd : nat) (data : string) : M unit := fun w =>
  match handles w !! fd with
  | None => (Raised (Exception "ValueError"), w)
  | Some path =>
      let old := default EmptyString (files w !! path) in
      match write_fault E w path data with
      | Some (e, n) =>
          (Raised e,
           mkWorld (<[path := old +:+ String.substring 0 n data]> (files w))
                   (handles w) (events w ++ [EvWrite fd data]))
      | None =>
          (Ok tt,
           mkWorld (<[path := old +:+ data]> (files w))
                   (handles w) (events w ++ [EvWrite fd data]))
      end
  end.

(** [f.close()] *)
Definition file_close (fd : nat) : M unit := fun w =>
  (Ok tt, mkWorld (files w) (delete fd (handles w)) (events w ++ [EvClose fd])).

(** [with open(path, 'w', encoding='utf-8') as f: body]: when the open
    succeeds the handle is closed on the way out, whatever the body did, and
    the body's result or exception goes on. *)
Definition with_open {A} (path : string) (body : nat -> M A) : M A := fun w =>
  match open_w path w with
  | (Raised e, w1) => (Raised e, w1)
  | (Ok f, w1) =>
      let '(r, w2) := body f w1 in
      let '(_, w3) := file_close f w2 in
      (r, w3)
  end.

(** [print(line)] *)
Definition print (line : string) : M unit := fun w =>
  (Ok tt, log (EvPrint line) w).

(** ** The script *)

(** The loop of [read_docx]: [full_text.append(para.text)] for each
    paragraph, starting from the empty list. *)
Definition collect_text (paras : list Paragraph) : list string :=
  fold_left (fun full_text para => full_text ++ [text para]) paras [].

Definition read_docx (file_path : string) : M string :=
  doc <- docx_Document file_path ;;
  let full_text := collect_text (paragraphs doc) in
  ret (str_join NL full_text).

Definition input_name : string := "JB_Platform_PRD_v3.docx".
Definition output_name : string := "JB_Platform_PRD_v3.txt".

Definition success_message : string :=
  "Successfully extracted text to JB_Platform_PRD_v3.txt".
Definition not_found_message (file_path : string) : string :=
  "File " +:+ file_path +:+ " not found".

(** Lines 14 and 15: the [with] block that writes the text. *)
Definition persist (data : string) : M unit :=
  with_open output_name (fun f => file_write f data).

(** Lines 11 to 18: the body of the module. *)
Definition main : M unit :=
  let file_path := input_name in
  found <- os_path_exists file_path ;;
  if (found : bool) then
    data <- read_docx file_path ;;
    persist data ;;;
    print success_message
  else
    print (not_found_message file_path).

End Script.

(** The events that a computation adds to the log of the world it starts
    from. *)
Definition emitted {A} (m : M A) (w : World) : list event :=
  drop (length (events w)) (events (m w).2).

(** Paragraph fidelity of a run on the document [doc]: when the run ends
    normally, the output file split at the newlines has as many pieces as
    the document has paragraphs, and the piece at each index is the text of
    the paragraph at that index. *)
Definition paragraph_fidelity (E : Env) (w : World) (doc : DocumentObj) : Prop :=
  forall w', main E w = (Ok tt, w') ->
  exists content,
    files w' !! output_name = Some content
    /\ length (str_split nl content) = length (paragraphs doc)
    /\ forall i p, paragraphs doc !! i = Some p ->
                   str_split nl content !! i = Some (text p).

(** ** Sample documents, collaborators and worlds *)

Definition doc_of (l : list string) : DocumentObj :=
  {| paragraphs := (fun s => {| text := s |}) <$> l |}.

(** A decoder that finds the paragraphs [l] in every file, on a system
    that refuses nothing. *)
Definition env_of (l : list string) : Env :=
  mkEnv (fun _ => Ok (doc_of l)) (fun _ _ => None) (fun _ _ _ => None).

(** A decoder that rejects every file. *)
Definition env_corrupt : Env :=
  mkEnv (fun _ => Raised (Exception "BadZipFile"))
        (fun _ _ => None) (fun _ _ _ => None).

(** A system on which the output cannot be opened. *)
Definition env_read_only (l : list string) : Env :=
  mkEnv (fun _ => Ok (doc_of l))
        (fun _ _ => Some (Exception "PermissionError")) (fun _ _ _ => None).

(** A system on which every write fails after [n] characters. *)
Definition env_disk_full (l : list string) (n : nat) : Env :=
  mkEnv (fun _ => Ok (doc_of l)) (fun _ _ => None)
        (fun _ _ _ => Some (Exception "OSError", n)).

(** A system on which a write fails after [n] characters unless something
    has been logged before the run reached it, as on a second run. *)
Definition env_flaky (l : list string) (n : nat) : Env :=
  mkEnv (fun _ => Ok (doc_of l)) (fun _ _ => None)
        (fun w _ _ => if decide (length (events w) <= 2)
                      then Some (Exception "OSError", n) else None).

Definition world_empty : World := mkWorld ∅ ∅ [].

(** The input is present, and an output of an earlier run as well. *)
Definition world_with_input : World :=
  mkWorld {[ input_name := "PK"; output_name := "stale" ]} ∅ [].

Definition scenario_A : list string := ["Title"; ""; "Body text."].

(** One paragraph with a line break inside, as python-docx reports it. *)
Definition line_break_paragraph : list string := ["a" +:+ NL +:+ "b"].

(** * Facts about the text operations *)

Section TextFacts.

#[local] Arguments String.append !s1 s2 : simpl nomatch.

Lemma collect_text_from (paras : list Paragraph) (acc : list string) :
  fold_left (fun full_text para => full_text ++ [text para]) paras acc
  = acc ++ map text paras.
Proof.
  revert acc. induction paras as [|p paras IH]; intros acc; simpl.
  - by rewrite app_nil_r.
  - rewrite IH. by rewrite <- app_assoc.
Qed.

Lemma collect_text_map (paras : list Paragraph) :
  collect_text paras = map text paras.
Proof. unfold collect_text. by rewrite collect_text_from. Qed.

Lemma str_join_cons (sep x : string) (l : list string) :
  l <> [] -> str_join sep (x :: l) = x +:+ sep +:+ str_join sep l.
Proof. destruct l; [done | reflexivity]. Qed.

Lemma string_app_empty_r (s : string) : s +:+ EmptyString = s.
Proof. induction s as [|a s IH]; simpl; [done | by f_equal]. Qed.

Lemma string_app_assoc (a b c : string) : (a +:+ b) +:+ c = a +:+ b +:+ c.
Proof. induction a as [|x a IH]; simpl; [done | by f_equal]. Qed.

Lemma string_length_app (a b : string) :
  String.length (a +:+ b) = String.length a + String.length b.
Proof. induction a as [|x a IH]; simpl; [done | by f_equal]. Qed.

(** Python's join is the text the specification describes. *)
Lemma str_join_newline_separated (l : list string) :
  str_join NL l = newline_separated l.
Proof.
  destruct l as [|x l]; [done |].
  revert x. induction l as [|y l IH]; intros x.
  - simpl. by rewrite string_app_empty_r.
  - rewrite str_join_cons by done. by rewrite IH.
Qed.

Lemma str_join_length (l : list string) :
  String.length (str_join NL l)
  = sum_list (String.length <$> l) + pred (length l).
Proof.
  destruct l as [|x l]; [done |].
  revert x. induction l as [|y l IH]; intros x.
  - simpl. lia.
  - rewrite str_join_cons by done.
    rewrite !string_length_app, IH. simpl. lia.
Qed.

Lemma str_split_not_nil (c : ascii) (s : string) : str_split c s <> [].
Proof.
  destruct s as [|a s]; simpl; [done |].
  destruct (Ascii.eqb a c); [done |].
  by destruct (str_split c s).
Qed.

Lemma str_split_app (c : ascii) (a b : string) :
  str_split c (a +:+ String c b) = str_split c a ++ str_split c b.
Proof.
  induction a as [|x a IH]; simpl.
  - by rewrite Ascii.eqb_refl.
  - destruct (Ascii.eqb x c); [by rewrite IH |].
    rewrite IH. pose proof (str_split_not_nil c a) as Hne.
    by destruct (str_split c a).
Qed.

Lemma str_split_length (c : ascii) (s : string) :
  length (str_split c s) = S (count_char c s).
Proof.
  induction s as [|a s IH]; simpl; [done |].
  destruct (Ascii.eqb a c); simpl; [by rewrite IH |].
  destruct (str_split c s); simpl in *; lia.
Qed.

Lemma str_split_none (c : ascii) (s : string) :
  count_char c s = 0 -> str_split c s = [s].
Proof.
  induction s as [|a s IH]; simpl; [done |].
  destruct (Ascii.eqb a c); [done |]. simpl.
  intros H. by rewrite IH.
Qed.

Lemma str_split_join_cons (x : string) (l : list string) :
  l <> [] ->
  str_split nl (str_join NL (x :: l))
  = str_split nl x ++ str_split nl (str_join NL l).
Proof.
  intros Hl. rewrite str_join_cons by done.
  unfold NL. simpl. apply str_split_app.
Qed.

(** Splitting a join gives back the list when no element holds the
    separator. *)
Lemma str_split_join (l : list string) :
  l <> [] -> Forall single_line l -> str_split nl (str_join NL l) = l.
Proof.
  intros Hl Hall. induction Hall as [|x l Hx Hall IH]; [done |].
  destruct l as [|y l].
  - simpl. by apply str_split_none.
  - rewrite str_split_join_cons by done.
    rewrite IH by done. by rewrite (str_split_none _ _ Hx).
Qed.

(** The number of pieces of a split join: one per element, and one more
    for each separator inside an element. *)
Lemma str_split_join_length (l : list string) :
  l <> [] ->
  length (str_split nl (str_join NL l))
  = length l + sum_list (count_char nl <$> l).
Proof.
  intros Hl. induction l as [|x l IH]; [done |].
  destruct l as [|y l].
  - simpl. rewrite str_split_length. lia.
  - rewrite str_split_join_cons by done.
    rewrite length_app, IH by done.
    rewrite str_split_length. simpl. lia.
Qed.

Lemma sum_list_zero_Forall (f : string -> nat) (l : list string) :
  sum_list (f <$> l) = 0 <-> Forall (fun s => f s = 0) l.
Proof.
  induction l as [|x l IH].
  - split; [constructor | done].
  - rewrite fmap_cons, Forall_cons, <- IH. simpl.
    generalize (sum_list (f <$> l)) (f x). lia.
Qed.

Lemma starts_with_correct (p s : string) :
  starts_with p s = true <-> exists post, s = p +:+ post.
Proof.
  revert s. induction p as [|a p IH]; intros s; simpl.
  - split; [eauto | done].
  - destruct s as [|b s]; [split; [done | by intros [? ?]] |].
    rewrite andb_true_iff, Ascii.eqb_eq, IH. split.
    + intros [-> [post ->]]. by exists post.
    + intros [post H]. injection H as -> ->. eauto.
Qed.

(** [contains] finds exactly the strings that occur inside another. *)
Lemma contains_correct (needle hay : string) :
  contains needle hay = true
  <-> exists pre post, hay = pre +:+ needle +:+ post.
Proof.
  induction hay as [|b hay IH]; simpl.
  - rewrite orb_false_r, starts_with_correct. split.
    + intros [post H]. by exists EmptyString, post.
    + intros [pre [post H]]. destruct pre; [eauto | done].
  - rewrite orb_true_iff, IH, (starts_with_correct needle (String b hay)). split.
    + intros [[post H] | [pre [post H]]].
      * by exists EmptyString, post.
      * exists (String b pre), post. simpl. by rewrite H.
    + intros [pre [post H]]. destruct pre as [|a pre]; simpl in H.
      * left. eauto.
      * right. exists pre, post. congruence.
Qed.

End TextFacts.

(** * Facts about runs *)

Section RunFacts.
Context (E : Env).

Lemma names_differ : input_name <> output_name.
Proof. done. Qed.

Lemma emitted_app {A} (m : M A) (w : World) (evs : list event) :
  events (m w).2 = events w ++ evs -> emitted m w = evs.
Proof. unfold emitted. intros ->. apply drop_app_length. Qed.

Lemma console_app (w w' : World) (evs : list event) :
  events w' = events w ++ evs ->
  console w' = console w ++ omap (fun ev => match ev with
                                           | EvPrint line => Some line
                                           | _ => None
                                           end) evs.
Proof. unfold console. intros ->. apply omap_app. Qed.

Lemma os_path_exists_run (path : string) (w : World) :
  os_path_exists path w
  = (Ok (match files w !! path with Some _ => true | None => false end), w).
Proof. unfold os_path_exists. by destruct (files w !! path). Qed.

(** The extractor, step by step: one decoder call, then the join of the
    paragraph texts, or the decoder's exception. *)
Lemma read_docx_run (path bytes : string) (w : World) :
  files w !! path = Some bytes ->
  read_docx E path w
  = (match decode E bytes with
     | Ok doc => Ok (str_join NL (text <$> paragraphs doc))
     | Raised e => Raised e
     end, log (EvDecode path) w).
Proof.
  intros Hin. unfold read_docx, bind, docx_Document. rewrite Hin.
  destruct (decode E bytes) as [doc|e]; [|done].
  unfold ret. by rewrite collect_text_map.
Qed.

(** The world just after [open(output_name, 'w')] succeeded. *)
Lemma open_w_run (path : string) (w : World) :
  open_w E path w
  = match open_fault E w path with
    | Some e => (Raised e, w)
    | None =>
        (Ok (fresh (dom (handles w))),
         mkWorld (<[path := EmptyString]> (files w))
                 (<[fresh (dom (handles w)) := path]> (handles w))
                 (events w ++ [EvOpen path (fresh (dom (handles w)))]))
    end.
Proof. reflexivity. Qed.

Lemma fresh_handle_free (w : World) :
  handles w !! fresh (dom (handles w)) = None.
Proof. apply not_elem_of_dom, is_fresh. Qed.

(** The [with] block, step by step. *)
Lemma persist_run (data : string) (w : World) :
  persist E data w
  = match open_w E output_name w with
    | (Raised e, w1) => (Raised e, w1)
    | (Ok f, w1) =>
        let evs := events w ++ [EvOpen output_name f; EvWrite f data; EvClose f] in
        match write_fault E w1 output_name data with
        | Some (e, n) =>
            (Raised e,
             mkWorld (<[output_name := String.substring 0 n data]> (files w))
                     (handles w) evs)
        | None =>
            (Ok tt, mkWorld (<[output_name := data]> (files w)) (handles w) evs)
        end
    end.
Proof.
  unfold persist, with_open. rewrite open_w_run.
  destruct (open_fault E w output_name) as [e|]; [done |].
  unfold file_write. cbn [handles files events].
  rewrite !lookup_insert_eq. cbn [default].
  change (EmptyString +:+ ?s) with s.
  destruct (write_fault E _ output_name data) as [[e n]|];
    unfold file_close; cbn [handles files events fst snd];
    rewrite insert_insert_eq, delete_insert_id by apply fresh_handle_free;
    by rewrite <- !app_assoc.
Qed.

(** The module body when the input is absent. *)
Lemma main_absent (w : World) :
  files w !! input_name = None ->
  main E w = (Ok tt, log (EvPrint (not_found_message input_name)) w).
Proof.
  intros Hin. unfold main, bind. rewrite os_path_exists_run, Hin. done.
Qed.

(** The module body when the input is present. *)
Lemma main_present (w : World) (bytes : string) :
  files w !! input_name = Some bytes ->
  main E w
  = match read_docx E input_name w with
    | (Raised e, w1) => (Raised e, w1)
    | (Ok data, w1) =>
        match persist E data w1 with
        | (Raised e, w2) => (Raised e, w2)
        | (Ok _, w2) => (Ok tt, log (EvPrint success_message) w2)
        end
    end.
Proof.
  intros Hin. unfold main, bind. rewrite os_path_exists_run, Hin.
  destruct (read_docx E input_name w) as [[data|e] w1]; [|done].
  by destruct (persist E data w1) as [[[]|e] w2].
Qed.

(** What a run that ends normally on a present input has done. *)
Lemma main_ok_present (w w' : World) (bytes : string) :
  files w !! input_name = Some bytes ->
  main E w = (Ok tt, w') ->
  exists doc f,
    let data := str_join NL (text <$> paragraphs doc) in
    decode E bytes = Ok doc
    /\ read_docx E input_name w = (Ok data, log (EvDecode input_name) w)
    /\ (persist E data (log (EvDecode input_name) w)).1 = Ok tt
    /\ files w' = <[output_name := data]> (files w)
    /\ handles w' = handles w
    /\ events w' = events w ++ [EvDecode input_name; EvOpen output_name f;
                                EvWrite f data; EvClose f;
                                EvPrint success_message].
Proof.
  intros Hin. rewrite (main_present w bytes Hin).
  rewrite (read_docx_run input_name bytes w Hin).
  destruct (decode E bytes) as [doc|e]; [|done].
  destruct (persist E _ _) as [[[]|e] w2] eqn:Hp; [|done].
  intros [= <-]. exists doc, (fresh (dom (handles w))).
  cbv zeta. split; [done |]. split; [done |]. split; [by rewrite Hp |].
  rewrite persist_run, open_w_run in Hp.
  destruct (open_fault E _ output_name) as [e|]; [done |].
  cbv zeta in Hp.
  destruct (write_fault E _ output_name _) as [[e n]|]; [done |].
  injection Hp as <-. cbn. by rewrite <- !app_assoc.
Qed.

End RunFacts.

(** * The extractor *)

(** C2, join semantics.  When the decoder finds a document in the file, the
    text that [read_docx] returns is the first paragraph followed by each
    further paragraph behind exactly one newline: its length is the sum of
    the paragraph lengths plus one per paragraph boundary, so nothing
    trails the last paragraph; the paragraphs "Title", "" and "Body text."
    give "Title", two newlines and "Body text."; a document without
    paragraphs gives the empty string. *)
Theorem read_docx_join_semantics (E : Env) (w : World) (path bytes : string)
    (doc : DocumentObj) :
  files w !! path = Some bytes ->
  decode E bytes = Ok doc ->
  let l := text <$> paragraphs doc in
  (read_docx E path w).1 = Ok (newline_separated l)
  /\ String.length (newline_separated l)
     = sum_list (String.length <$> l) + pred (length l)
  /\ (l = scenario_A ->
      (read_docx E path w).1 = Ok ("Title" +:+ NL +:+ NL +:+ "Body text."))
  /\ (paragraphs doc = [] -> (read_docx E path w).1 = Ok EmptyString).
Proof.
  intros Hin Hdoc l. rewrite (read_docx_run E path bytes w Hin), Hdoc.
  cbn [fst]. fold l. rewrite str_join_newline_separated.
  split; [done |]. split.
  - rewrite <- str_join_newline_separated. apply str_join_length.
  - split.
    + by intros ->.
    + intros Hnil. subst l. by rewrite Hnil.
Qed.

Lemma read_docx_join_semantics_witness :
  (read_docx (env_of scenario_A) input_name world_with_input).1
  = Ok ("Title" +:+ NL +:+ NL +:+ "Body text.").
Proof.
  refine (proj1 (proj2 (proj2
    (read_docx_join_semantics (env_of scenario_A) world_with_input
       input_name "PK" (doc_of scenario_A) _ _))) _); reflexivity.
Defined.

(** C10, round trip at the extractor.  For a document with at least one
    paragraph and no newline inside any paragraph, splitting the text that
    [read_docx] returns at the newlines gives back the paragraph texts; and
    for every document the number of pieces equals the number of paragraphs
    exactly when those two conditions hold. *)
Theorem read_docx_split_round_trip (E : Env) (w : World) (path bytes : string)
    (doc : DocumentObj) :
  files w !! path = Some bytes ->
  decode E bytes = Ok doc ->
  let l := text <$> paragraphs doc in
  exists data,
    (read_docx E path w).1 = Ok data
    /\ (l <> [] -> Forall single_line l -> str_split nl data = l)
    /\ (length (str_split nl data) = length l
        <-> l <> [] /\ Forall single_line l).
Proof.
  intros Hin Hdoc l. rewrite (read_docx_run E path bytes w Hin), Hdoc.
  fold l. exists (str_join NL l). split; [done |]. split.
  - apply str_split_join.
  - destruct (decide (l = [])) as [->|Hne].
    + simpl. split; [done | by intros [? _]].
    + rewrite str_split_join_length by done.
      unfold single_line. rewrite <- sum_list_zero_Forall.
      split; [intros; split; [done | lia] | intros [_ ->]; lia].
Qed.

Lemma read_docx_split_round_trip_witness :
  exists data,
    (read_docx (env_of scenario_A) input_name world_with_input).1 = Ok data
    /\ str_split nl data = scenario_A.
Proof.
  destruct (read_docx_split_round_trip (env_of scenario_A) world_with_input
              input_name "PK" (doc_of scenario_A) eq_refl eq_refl)
    as [data [Hrun [Hsplit _]]].
  exists data. split; [exact Hrun |].
  apply Hsplit; [discriminate |].
  repeat constructor.
Defined.

(** * The run *)

(** C1 as stated fails: a document without paragraphs gives an empty
    output file, which splits into one empty piece and not into none; and a
    paragraph with a line break inside gives two pieces for one
    paragraph. *)
Lemma paragraph_fidelity_counterexample :
  (main (env_of []) world_with_input).1 = Ok tt
  /\ files (main (env_of []) world_with_input).2 !! output_name
     = Some EmptyString
  /\ str_split nl EmptyString = [EmptyString]
  /\ ~ paragraph_fidelity (env_of []) world_with_input (doc_of [])
  /\ (main (env_of line_break_paragraph) world_with_input).1 = Ok tt
  /\ files (main (env_of line_break_paragraph) world_with_input).2
       !! output_name = Some ("a" +:+ NL +:+ "b")
  /\ str_split nl ("a" +:+ NL +:+ "b") = ["a"; "b"]
  /\ ~ paragraph_fidelity (env_of line_break_paragraph) world_with_input
         (doc_of line_break_paragraph).
Proof.
  split; [reflexivity |]. split; [reflexivity |]. split; [reflexivity |].
  split.
  { intros H.
    destruct (H (main (env_of []) world_with_input).2 eq_refl)
      as [content [Hc [Hlen _]]].
    vm_compute in Hc. injection Hc as <-. discriminate Hlen. }
  split; [reflexivity |]. split; [reflexivity |]. split; [reflexivity |].
  intros H.
  destruct (H (main (env_of line_break_paragraph) world_with_input).2 eq_refl)
    as [content [Hc [Hlen _]]].
  vm_compute in Hc. injection Hc as <-. discriminate Hlen.
Qed.

(** C1, amended.  For a document with at least one paragraph and no
    newline inside any paragraph, a run that ends normally leaves an output
    file whose split at the newlines has exactly one piece per paragraph,
    each equal to the text of the paragraph at the same index. *)
Theorem paragraph_fidelity_single_line (E : Env) (w : World) (bytes : string)
    (doc : DocumentObj) :
  files w !! input_name = Some bytes ->
  decode E bytes = Ok doc ->
  paragraphs doc <> [] ->
  Forall (fun p => single_line (text p)) (paragraphs doc) ->
  paragraph_fidelity E w doc.
Proof.
  intros Hin Hdoc Hne Hall w' Hrun.
  destruct (main_ok_present E w w' bytes Hin Hrun)
    as (doc' & f & Hdoc' & _ & _ & Hfiles & _).
  assert (doc' = doc) as -> by congruence.
  exists (str_join NL (text <$> paragraphs doc)).
  assert (str_split nl (str_join NL (text <$> paragraphs doc))
          = text <$> paragraphs doc) as Hsplit.
  { apply str_split_join.
    - by destruct (paragraphs doc).
    - by apply Forall_fmap. }
  rewrite Hfiles, lookup_insert_eq, Hsplit. split; [done |]. split.
  - apply length_fmap.
  - intros i p Hp. by rewrite list_lookup_fmap, Hp.
Qed.

Lemma paragraph_fidelity_single_line_witness :
  paragraph_fidelity (env_of scenario_A) world_with_input (doc_of scenario_A)
  /\ (main (env_of scenario_A) world_with_input).1 = Ok tt.
Proof.
  split; [| reflexivity].
  apply (paragraph_fidelity_single_line (env_of scenario_A) world_with_input
           "PK" (doc_of scenario_A)).
  - reflexivity.
  - reflexivity.
  - discriminate.
  - repeat constructor.
Defined.

(** C3, missing input.  When nothing exists at the input path the run ends
    normally; all it does is print one line, which contains the input file
    name; no file is created or changed, no handle is opened, and the
    decoder is not called. *)
Theorem missing_input_is_safe (E : Env) (w : World) :
  files w !! input_name = None ->
  (main E w).1 = Ok tt
  /\ files (main E w).2 = files w
  /\ handles (main E w).2 = handles w
  /\ (exists line, emitted (main E) w = [EvPrint line]
                   /\ contains input_name line = true)
  /\ filter is_decode (emitted (main E) w) = []
  /\ filter is_file_op (emitted (main E) w) = [].
Proof.
  intros Hin.
  assert (emitted (main E) w = [EvPrint (not_found_message input_name)])
    as Hem.
  { apply emitted_app. by rewrite (main_absent E w Hin). }
  rewrite Hem, (main_absent E w Hin).
  repeat split. by exists (not_found_message input_name).
Qed.

Lemma missing_input_is_safe_witness :
  (main env_corrupt world_empty).1 = Ok tt
  /\ files (main env_corrupt world_empty).2 = files world_empty.
Proof.
  destruct (missing_input_is_safe env_corrupt world_empty eq_refl)
    as (Hok & Hfiles & _).
  exact (conj Hok Hfiles).
Defined.

(** C4, failures are not caught.  With the input present: an exception of
    the decoder leaves [read_docx] as it is; an exception of the open or of
    the write leaves the [with] block as it is; and an exception that leaves
    the extractor or the [with] block leaves the module body as it is, with
    nothing printed. *)
Theorem failures_propagate (E : Env) (w : World) (bytes : string) (e : exn) :
  files w !! input_name = Some bytes ->
  (decode E bytes = Raised e -> (read_docx E input_name w).1 = Raised e)
  /\ (forall data w1,
        (open_w E output_name w1).1 = Raised e ->
        (persist E data w1).1 = Raised e)
  /\ (forall data w1 f w2,
        open_w E output_name w1 = (Ok f, w2) ->
        (file_write E f data w2).1 = Raised e ->
        (persist E data w1).1 = Raised e)
  /\ ((read_docx E input_name w).1 = Raised e ->
      (main E w).1 = Raised e /\ console (main E w).2 = console w)
  /\ (forall data w1,
        read_docx E input_name w = (Ok data, w1) ->
        (persist E data w1).1 = Raised e ->
        (main E w).1 = Raised e /\ console (main E w).2 = console w).
Proof.
  intros Hin. split; [| split; [| split; [| split]]].
  - intros Hdec. by rewrite (read_docx_run E _ _ _ Hin), Hdec.
  - intros data w1. unfold persist, with_open.
    destruct (open_w E output_name w1) as [[f|e'] w2]; cbn; congruence.
  - intros data w1 f w2 Hopen. unfold persist, with_open. rewrite Hopen.
    by destruct (file_write E f data w2) as [r w3].
  - rewrite (main_present E w bytes Hin).
    rewrite (read_docx_run E _ _ _ Hin).
    destruct (decode E bytes) as [doc|e']; [done |].
    intros [= ->]. split; [done |].
    rewrite (console_app w _ [EvDecode input_name]) by done.
    apply app_nil_r.
  - intros data w1 Hread. rewrite (main_present E w bytes Hin), Hread.
    rewrite (read_docx_run E _ _ _ Hin) in Hread.
    injection Hread as _ <-.
    rewrite persist_run, open_w_run.
    destruct (open_fault E _ output_name) as [e'|].
    + intros [= ->]. split; [done |].
      rewrite (console_app w _ [EvDecode input_name]) by done.
      apply app_nil_r.
    + cbv zeta.
      destruct (write_fault E _ output_name data) as [[e' n]|]; [| done].
      intros [= ->]. split; [done |]. cbn [snd fst].
      erewrite (console_app w); [| cbn; by rewrite <- app_assoc].
      apply app_nil_r.
Qed.

Lemma failures_propagate_witness :
  ((main env_corrupt world_with_input).1 = Raised (Exception "BadZipFile")
   /\ console (main env_corrupt world_with_input).2
      = console world_with_input)
  /\ ((main (env_read_only scenario_A) world_with_input).1
      = Raised (Exception "PermissionError")
      /\ console (main (env_read_only scenario_A) world_with_input).2
         = console world_with_input)
  /\ ((main (env_disk_full scenario_A 3) world_with_input).1
      = Raised (Exception "OSError")
      /\ console (main (env_disk_full scenario_A 3) world_with_input).2
         = console world_with_input).
Proof.
  split; [| split].
  - apply (failures_propagate env_corrupt world_with_input "PK"
             (Exception "BadZipFile") eq_refl).
    reflexivity.
  - eapply (failures_propagate (env_read_only scenario_A) world_with_input
              "PK" (Exception "PermissionError") eq_refl).
    + reflexivity.
    + reflexivity.
  - eapply (failures_propagate (env_disk_full scenario_A 3) world_with_input
              "PK" (Exception "OSError") eq_refl).
    + reflexivity.
    + reflexivity.
Defined.

(** C5, overwrite.  After a run that ends normally on a present input,
    the output file holds exactly the joined text and every other file is
    as before; the same holds from any other world with the same input,
    whatever it had at the output path. *)
Theorem output_is_overwritten (E : Env) (w w' : World) (bytes : string)
    (doc : DocumentObj) :
  files w !! input_name = Some bytes ->
  decode E bytes = Ok doc ->
  main E w = (Ok tt, w') ->
  let data := str_join NL (text <$> paragraphs doc) in
  files w' !! output_name = Some data
  /\ files w' = <[output_name := data]> (files w)
  /\ (forall prior v',
        main E (mkWorld (<[output_name := prior]> (files w))
                        (handles w) (events w)) = (Ok tt, v') ->
        files v' !! output_name = Some data)
  /\ (forall v', main E (mkWorld (delete output_name (files w))
                                 (handles w) (events w)) = (Ok tt, v') ->
                 files v' !! output_name = Some data).
Proof.
  intros Hin Hdoc Hrun data.
  assert (forall v v', files v !! input_name = Some bytes ->
                       main E v = (Ok tt, v') ->
                       files v' = <[output_name := data]> (files v)) as Hany.
  { intros v v' Hv Hv'.
    destruct (main_ok_present E v v' bytes Hv Hv')
      as (doc' & f & Hdoc' & _ & _ & Hfiles & _).
    by assert (doc' = doc) as -> by congruence. }
  split; [| split; [| split]].
  - rewrite (Hany w w' Hin Hrun). apply lookup_insert_eq.
  - exact (Hany w w' Hin Hrun).
  - intros prior v' Hv'. apply Hany in Hv' as ->; [apply lookup_insert_eq |].
    cbn. by rewrite lookup_insert_ne.
  - intros v' Hv'. apply Hany in Hv' as ->; [apply lookup_insert_eq |].
    cbn. by rewrite lookup_delete_ne.
Qed.

Lemma output_is_overwritten_witness :
  files world_with_input !! output_name = Some "stale"
  /\ files (main (env_of scenario_A) world_with_input).2 !! output_name
     = Some ("Title" +:+ NL +:+ NL +:+ "Body text.").
Proof.
  split; [reflexivity |].
  apply (output_is_overwritten (env_of scenario_A) world_with_input
           (main (env_of scenario_A) world_with_input).2 "PK"
           (doc_of scenario_A)); reflexivity.
Defined.

(** C6, repeatability.  When a run ends normally and a second run, started
    from the world the first one left, ends normally too, the first run has
    not touched the input and the second leaves the file system, and with
    it the output file, as the first one left it; the output is the join of
    the paragraph texts, so it depends on the document through its
    paragraph sequence only. *)
Theorem extraction_is_repeatable (E : Env) (w w1 w2 : World) :
  main E w = (Ok tt, w1) ->
  main E w1 = (Ok tt, w2) ->
  files w1 !! input_name = files w !! input_name
  /\ files w2 !! output_name = files w1 !! output_name
  /\ files w2 = files w1
  /\ (forall bytes doc,
        files w !! input_name = Some bytes ->
        decode E bytes = Ok doc ->
        files w1 !! output_name
        = Some (str_join NL (text <$> paragraphs doc))).
Proof.
  intros Hrun1 Hrun2.
  destruct (files w !! input_name) as [bytes|] eqn:Hin.
  - destruct (main_ok_present E w w1 bytes Hin Hrun1)
      as (doc & f & Hdoc & _ & _ & Hfiles1 & _).
    assert (files w1 !! input_name = Some bytes) as Hin1.
    { rewrite Hfiles1, lookup_insert_ne by (symmetry; apply names_differ).
      done. }
    destruct (main_ok_present E w1 w2 bytes Hin1 Hrun2)
      as (doc' & f' & Hdoc' & _ & _ & Hfiles2 & _).
    assert (doc' = doc) as -> by congruence.
    assert (files w2 = files w1) as Heq.
    { rewrite Hfiles2, Hfiles1. apply insert_insert_eq. }
    split; [done |]. split; [by rewrite Heq |]. split; [done |].
    intros bytes' doc' [= <-] Hdoc''.
    assert (doc' = doc) as -> by congruence.
    rewrite Hfiles1. apply lookup_insert_eq.
  - rewrite (main_absent E w Hin) in Hrun1. injection Hrun1 as <-.
    rewrite (main_absent E (log _ w) Hin) in Hrun2. injection Hrun2 as <-.
    by repeat split.
Qed.

Lemma extraction_is_repeatable_witness :
  files (main (env_of scenario_A)
              (main (env_of scenario_A) world_with_input).2).2 !! output_name
  = files (main (env_of scenario_A) world_with_input).2 !! output_name.
Proof.
  apply (extraction_is_repeatable (env_of scenario_A) world_with_input
           (main (env_of scenario_A) world_with_input).2
           (main (env_of scenario_A)
                 (main (env_of scenario_A) world_with_input).2).2);
    reflexivity.
Defined.

(** C7, console outcomes.  A run that ends normally has printed exactly one
    line: either the input was absent and the line is the not-found message,
    which contains the input file name, or the input was present, the
    extraction and the write succeeded, and the line is the success message,
    which contains the output file name.  The two messages differ. *)
Theorem console_outcomes (E : Env) (w w' : World) :
  main E w = (Ok tt, w') ->
  exists line,
    console w' = console w ++ [line]
    /\ ((files w !! input_name = None
         /\ line = not_found_message input_name
         /\ contains input_name line = true)
        \/ (is_Some (files w !! input_name)
            /\ line = success_message
            /\ contains output_name line = true
            /\ exists data w1,
                 read_docx E input_name w = (Ok data, w1)
                 /\ (persist E data w1).1 = Ok tt))
    /\ not_found_message input_name <> success_message.
Proof.
  intros Hrun.
  destruct (files w !! input_name) as [bytes|] eqn:Hin.
  - destruct (main_ok_present E w w' bytes Hin Hrun)
      as (doc & f & Hdoc & Hread & Hpersist & _ & _ & Hev).
    exists success_message. split; [by rewrite (console_app w w' _ Hev) |].
    split; [| done]. right. split; [by eexists |].
    split; [done |]. split; [reflexivity |]. eauto.
  - rewrite (main_absent E w Hin) in Hrun. injection Hrun as <-.
    exists (not_found_message input_name).
    split; [by rewrite (console_app w _ [EvPrint (not_found_message input_name)]) |].
    split; [| done]. left. split; [done |]. split; [done | reflexivity].
Qed.

Lemma console_outcomes_witness :
  (exists line, console (main (env_of scenario_A) world_with_input).2
                = console world_with_input ++ [line])
  /\ (exists line, console (main (env_of scenario_A) world_empty).2
                   = console world_empty ++ [line]).
Proof.
  split.
  - destruct (console_outcomes (env_of scenario_A) world_with_input
                (main (env_of scenario_A) world_with_input).2 eq_refl)
      as [line [Hline _]].
    exists line. exact Hline.
  - destruct (console_outcomes (env_of scenario_A) world_empty
                (main (env_of scenario_A) world_empty).2 eq_refl)
      as [line [Hline _]].
    exists line. exact Hline.
Defined.

(** C8, the output handle is released.  The [with] block leaves the table
    of open handles as it found it, whatever its outcome; when the open
    succeeded, the handle it returned was not in use before, stood for the
    output path inside the block, is closed after it, and the last thing
    the block did was to close it.  A run of the whole script leaves the
    table of open handles as it found it. *)
Theorem output_handle_released (E : Env) (data : string) (w : World) :
  handles (persist E data w).2 = handles w
  /\ (forall f w1,
        open_w E output_name w = (Ok f, w1) ->
        handles w !! f = None
        /\ handles w1 !! f = Some output_name
        /\ handles (persist E data w).2 !! f = None
        /\ emitted (persist E data) w
           = [EvOpen output_name f; EvWrite f data; EvClose f])
  /\ handles (main E w).2 = handles w.
Proof.
  assert (forall d v, handles (persist E d v).2 = handles v) as Hkeep.
  { intros d v. rewrite persist_run, open_w_run.
    destruct (open_fault E v output_name) as [e|]; [done |].
    cbv zeta. by destruct (write_fault E _ output_name d) as [[e n]|]. }
  split; [apply Hkeep |]. split.
  - intros f w1 Hopen. rewrite Hkeep.
    assert (emitted (persist E data) w
            = [EvOpen output_name f; EvWrite f data; EvClose f]) as Hem.
    { apply emitted_app. rewrite persist_run, Hopen. cbv zeta.
      by destruct (write_fault E w1 output_name data) as [[e n]|]. }
    rewrite open_w_run in Hopen.
    destruct (open_fault E w output_name) as [e|]; [done |].
    injection Hopen as <- <-. cbn [handles].
    rewrite lookup_insert_eq. by rewrite fresh_handle_free.
  - destruct (files w !! input_name) as [bytes|] eqn:Hin.
    + rewrite (main_present E w bytes Hin), (read_docx_run E _ _ _ Hin).
      destruct (decode E bytes) as [doc|e]; [| done].
      pose proof (Hkeep (str_join NL (text <$> paragraphs doc))
                        (log (EvDecode input_name) w)) as Hk.
      by destruct (persist E _ _) as [[[]|e] w2].
    + by rewrite (main_absent E w Hin).
Qed.

Lemma output_handle_released_witness :
  handles (persist (env_disk_full scenario_A 3) "abc" world_with_input).2
  = handles world_with_input
  /\ handles (persist (env_disk_full scenario_A 3) "abc" world_with_input).2
       !! 0 = None
  /\ emitted (persist (env_disk_full scenario_A 3) "abc") world_with_input
     = [EvOpen output_name 0; EvWrite 0 "abc"; EvClose 0].
Proof.
  destruct (output_handle_released (env_disk_full scenario_A 3) "abc"
              world_with_input) as (Hkeep & Hopen & _).
  destruct (Hopen 0 _ eq_refl) as (_ & _ & Hclosed & Hem).
  exact (conj Hkeep (conj Hclosed Hem)).
Defined.

(** C9, a decoder failure leaves the output alone.  With the input present,
    when the decoder raises, the run ends with that exception having done
    nothing but call the decoder: every file, the output among them, is as
    before or as absent as before; and in any run the output is opened only
    if the decoder has returned a document. *)
Theorem decode_failure_keeps_output (E : Env) (w : World) (bytes : string) :
  files w !! input_name = Some bytes ->
  (forall e, decode E bytes = Raised e ->
     (main E w).1 = Raised e
     /\ files (main E w).2 = files w
     /\ files (main E w).2 !! output_name = files w !! output_name
     /\ emitted (main E) w = [EvDecode input_name]
     /\ filter is_file_op (emitted (main E) w) = [])
  /\ (forall path f, EvOpen path f ∈ emitted (main E) w ->
        exists doc, decode E bytes = Ok doc).
Proof.
  intros Hin.
  assert (forall e, decode E bytes = Raised e ->
            main E w = (Raised e, log (EvDecode input_name) w)) as Hfail.
  { intros e He.
    by rewrite (main_present E w bytes Hin), (read_docx_run E _ _ _ Hin), He. }
  split.
  - intros e He.
    assert (emitted (main E) w = [EvDecode input_name]) as Hem.
    { apply emitted_app. by rewrite (Hfail e He). }
    rewrite Hem, (Hfail e He). by repeat split.
  - intros path f Hopen.
    destruct (decode E bytes) as [doc|e] eqn:Hdec; [by exists doc |].
    assert (emitted (main E) w = [EvDecode input_name]) as Hem.
    { apply emitted_app. by rewrite (Hfail e eq_refl). }
    rewrite Hem in Hopen. by apply list_elem_of_singleton in Hopen.
Qed.

Lemma decode_failure_keeps_output_witness :
  (main env_corrupt world_with_input).1 = Raised (Exception "BadZipFile")
  /\ files (main env_corrupt world_with_input).2 !! output_name
     = Some "stale".
Proof.
  destruct (proj1 (decode_failure_keeps_output env_corrupt world_with_input
                     "PK" eq_refl) (Exception "BadZipFile") eq_refl)
    as (Hraise & _ & Hout & _).
  split; [exact Hraise |]. rewrite Hout. reflexivity.
Defined.

(** * Further properties of the extractor *)

Section MoreTextFacts.

#[local] Arguments String.append !s1 s2 : simpl nomatch.

(** The pieces of a join are the pieces of its elements, in order. *)
Lemma str_split_join_concat (l : list string) :
  l <> [] ->
  str_split nl (str_join NL l) = concat (str_split nl <$> l).
Proof.
  intros Hl. induction l as [|x l IH]; [done |].
  destruct l as [|y l].
  - simpl. by rewrite app_nil_r.
  - rewrite str_split_join_cons by done. by rewrite IH.
Qed.

Lemma str_join_app (l1 l2 : list string) :
  l1 <> [] -> l2 <> [] ->
  str_join NL (l1 ++ l2) = str_join NL l1 +:+ NL +:+ str_join NL l2.
Proof.
  intros Hl1 Hl2. induction l1 as [|x l1 IH]; [done |].
  destruct l1 as [|y l1].
  - by rewrite <- str_join_cons.
  - change ((x :: y :: l1) ++ l2) with (x :: ((y :: l1) ++ l2)).
    rewrite !str_join_cons by done. rewrite IH by done.
    by rewrite !string_app_assoc.
Qed.

(** The first [n] characters of a string are a prefix of it. *)
Lemma substring_prefix (n : nat) (s : string) :
  exists rest, s = String.substring 0 n s +:+ rest.
Proof.
  revert n. induction s as [|a s IH]; intros [|n]; simpl.
  - by exists EmptyString.
  - by exists EmptyString.
  - by exists (String a s).
  - destruct (IH n) as [rest Hrest]. exists rest. by rewrite <- Hrest.
Qed.

End MoreTextFacts.

(** The loop of [read_docx] yields one text per paragraph, in document
    order: the list it builds is as long as the paragraph sequence and holds
    at each index the text of the paragraph at that index. *)
Theorem collect_text_in_order (paras : list Paragraph) :
  length (collect_text paras) = length paras
  /\ forall i, collect_text paras !! i = text <$> paras !! i.
Proof.
  rewrite collect_text_map. split.
  - apply length_fmap.
  - intros i. apply list_lookup_fmap.
Qed.

(** For a document with at least one paragraph, the lines of the text that
    [read_docx] returns are the lines of the first paragraph, then those of
    the second, and so on; their number is the number of paragraphs plus
    the number of newlines inside paragraphs. *)
Theorem read_docx_lines (E : Env) (w : World) (path bytes : string)
    (doc : DocumentObj) :
  files w !! path = Some bytes ->
  decode E bytes = Ok doc ->
  paragraphs doc <> [] ->
  exists data,
    (read_docx E path w).1 = Ok data
    /\ str_split nl data
       = concat ((fun p => str_split nl (text p)) <$> paragraphs doc)
    /\ length (str_split nl data)
       = length (paragraphs doc)
         + sum_list ((fun p => count_char nl (text p)) <$> paragraphs doc).
Proof.
  intros Hin Hdoc Hne.
  rewrite (read_docx_run E path bytes w Hin), Hdoc.
  assert (text <$> paragraphs doc <> []) as Hne'
    by (by destruct (paragraphs doc)).
  eexists. split; [done |]. split.
  - rewrite str_split_join_concat by done. by rewrite <- list_fmap_compose.
  - rewrite str_split_join_length by done.
    by rewrite length_fmap, <- list_fmap_compose.
Qed.

Lemma read_docx_lines_witness :
  exists data,
    (read_docx (env_of line_break_paragraph) input_name world_with_input).1
    = Ok data
    /\ length (str_split nl data) = 2.
Proof.
  destruct (read_docx_lines (env_of line_break_paragraph) world_with_input
              input_name "PK" (doc_of line_break_paragraph) eq_refl eq_refl)
    as [data [Hrun [_ Hlen]]]; [discriminate |].
  exists data. split; [exact Hrun | exact Hlen].
Defined.

(** Two documents, each with at least one paragraph and no newline inside
    a paragraph, that [read_docx] maps to the same text have the same
    sequence of paragraph texts. *)
Theorem read_docx_injective (E : Env) (w : World)
    (path1 path2 bytes1 bytes2 : string) (doc1 doc2 : DocumentObj) :
  files w !! path1 = Some bytes1 ->
  files w !! path2 = Some bytes2 ->
  decode E bytes1 = Ok doc1 ->
  decode E bytes2 = Ok doc2 ->
  paragraphs doc1 <> [] ->
  paragraphs doc2 <> [] ->
  Forall (fun p => single_line (text p)) (paragraphs doc1) ->
  Forall (fun p => single_line (text p)) (paragraphs doc2) ->
  (read_docx E path1 w).1 = (read_docx E path2 w).1 ->
  text <$> paragraphs doc1 = text <$> paragraphs doc2.
Proof.
  intros Hin1 Hin2 Hdoc1 Hdoc2 Hne1 Hne2 Hall1 Hall2.
  rewrite (read_docx_run E path1 bytes1 w Hin1), Hdoc1.
  rewrite (read_docx_run E path2 bytes2 w Hin2), Hdoc2.
  intros [= Heq].
  rewrite <- (str_split_join (text <$> paragraphs doc1)),
          <- (str_split_join (text <$> paragraphs doc2)).
  - by rewrite Heq.
  - by destruct (paragraphs doc2).
  - by apply Forall_fmap.
  - by destruct (paragraphs doc1).
  - by apply Forall_fmap.
Qed.

Lemma read_docx_injective_witness :
  text <$> paragraphs (doc_of scenario_A)
  = text <$> paragraphs (doc_of scenario_A).
Proof.
  apply (read_docx_injective (env_of scenario_A) world_with_input
           input_name output_name "PK" "stale");
    try reflexivity; try discriminate; repeat constructor.
Defined.

(** The text of a document whose paragraph sequence is one non-empty
    sequence followed by another is the text of the first, a newline and
    the text of the second; an empty sequence on either side adds nothing,
    not even a newline. *)
Theorem read_docx_text_of_append (paras1 paras2 : list Paragraph) :
  (paras1 <> [] -> paras2 <> [] ->
   str_join NL (collect_text (paras1 ++ paras2))
   = str_join NL (collect_text paras1) +:+ NL
     +:+ str_join NL (collect_text paras2))
  /\ str_join NL (collect_text ([] ++ paras2))
     = str_join NL (collect_text paras2)
  /\ str_join NL (collect_text (paras1 ++ []))
     = str_join NL (collect_text paras1).
Proof.
  split; [| split].
  - intros H1 H2. rewrite !collect_text_map, fmap_app.
    apply str_join_app; [by destruct paras1 | by destruct paras2].
  - done.
  - by rewrite app_nil_r.
Qed.

Lemma read_docx_text_of_append_witness :
  str_join NL (collect_text (paragraphs (doc_of ["a"; "b"])
                             ++ paragraphs (doc_of ["c"])))
  = "a" +:+ NL +:+ "b" +:+ NL +:+ "c".
Proof.
  rewrite (proj1 (read_docx_text_of_append (paragraphs (doc_of ["a"; "b"]))
                    (paragraphs (doc_of ["c"]))));
    [reflexivity | discriminate | discriminate].
Defined.

(** * Further properties of a run *)

Section MoreRunFacts.
Context (E : Env).

(** Every way a run can go, with the world it leaves. *)
Lemma main_run (w : World) :
  main E w
  = match files w !! input_name with
    | None => (Ok tt, log (EvPrint (not_found_message input_name)) w)
    | Some bytes =>
        let w0 := log (EvDecode input_name) w in
        match decode E bytes with
        | Raised e => (Raised e, w0)
        | Ok doc =>
            let data := str_join NL (text <$> paragraphs doc) in
            let f := fresh (dom (handles w)) in
            let evs := [EvDecode input_name; EvOpen output_name f;
                        EvWrite f data; EvClose f] in
            let w1 := mkWorld (<[output_name := EmptyString]> (files w))
                              (<[f := output_name]> (handles w))
                              (events w0 ++ [EvOpen output_name f]) in
            match open_fault E w0 output_name with
            | Some e => (Raised e, w0)
            | None =>
                match write_fault E w1 output_name data with
                | Some (e, n) =>
                    (Raised e,
                     mkWorld (<[output_name := String.substring 0 n data]>
                                (files w))
                             (handles w) (events w ++ evs))
                | None =>
                    (Ok tt,
                     mkWorld (<[output_name := data]> (files w)) (handles w)
                             (events w ++ evs ++ [EvPrint success_message]))
                end
            end
        end
    end.
Proof.
  destruct (files w !! input_name) as [bytes|] eqn:Hin;
    [| by apply main_absent].
  rewrite (main_present E w bytes Hin), (read_docx_run E _ _ _ Hin).
  destruct (decode E bytes) as [doc|e]; [| done].
  rewrite persist_run, open_w_run. cbv zeta.
  destruct (open_fault E _ output_name) as [e|]; [done |].
  cbn [files handles events log].
  destruct (write_fault E _ output_name _) as [[e n]|]; unfold log; cbn;
    by rewrite <- !app_assoc.
Qed.

(** The extractor changes neither files nor handles. *)
Lemma read_docx_world (path : string) (w : World) :
  (read_docx E path w).2 = log (EvDecode path) w.
Proof.
  unfold read_docx, bind, docx_Document.
  destruct (files w !! path) as [bytes|]; [| done].
  by destruct (decode E bytes).
Qed.

(** No outcome of a run changes a file other than the output. *)
Lemma main_other_files (w : World) (path : string) :
  path <> output_name ->
  files (main E w).2 !! path = files w !! path.
Proof.
  intros Hne. rewrite main_run.
  destruct (files w !! input_name) as [bytes|]; [| done].
  cbv zeta. destruct (decode E bytes) as [doc|e]; [| done].
  destruct (open_fault E _ output_name) as [e|]; [done |].
  destruct (write_fault E _ output_name _) as [[e n]|]; cbn;
    by rewrite lookup_insert_ne.
Qed.

End MoreRunFacts.

(** Whatever the decoder does with the file, and whether the file exists
    or not, [read_docx] leaves every file and every open handle as
    it was, and what it does is one call of the decoder on the path it was
    given. *)
Theorem read_docx_read_only (E : Env) (path : string) (w : World) :
  files (read_docx E path w).2 = files w
  /\ handles (read_docx E path w).2 = handles w
  /\ emitted (read_docx E path) w = [EvDecode path].
Proof.
  split; [| split].
  - by rewrite read_docx_world.
  - by rewrite read_docx_world.
  - apply emitted_app. by rewrite read_docx_world.
Qed.

(** Whatever the outcome of a run, a file at a path other than the output
    path is as it was before the run. *)
Theorem main_touches_only_output (E : Env) (w : World) (path : string) :
  path <> output_name ->
  files (main E w).2 !! path = files w !! path.
Proof. apply main_other_files. Qed.

Lemma main_touches_only_output_witness :
  files (main (env_disk_full scenario_A 3) world_with_input).2 !! input_name
  = files world_with_input !! input_name.
Proof.
  apply (main_touches_only_output (env_disk_full scenario_A 3)
           world_with_input input_name).
  discriminate.
Defined.

(** When the output cannot be opened, the run ends with the exception of
    the open after the decoder call and nothing else: no file is created,
    truncated or changed, and no handle is left open. *)
Theorem open_failure_keeps_files (E : Env) (w : World) (bytes : string)
    (doc : DocumentObj) (e : exn) :
  files w !! input_name = Some bytes ->
  decode E bytes = Ok doc ->
  open_fault E (log (EvDecode input_name) w) output_name = Some e ->
  (main E w).1 = Raised e
  /\ files (main E w).2 = files w
  /\ handles (main E w).2 = handles w
  /\ emitted (main E) w = [EvDecode input_name].
Proof.
  intros Hin Hdoc Hopen.
  assert (main E w = (Raised e, log (EvDecode input_name) w)) as Hrun.
  { rewrite main_run, Hin. cbv zeta. by rewrite Hdoc, Hopen. }
  split; [by rewrite Hrun |]. split; [by rewrite Hrun |].
  split; [by rewrite Hrun |]. apply emitted_app. by rewrite Hrun.
Qed.

Lemma open_failure_keeps_files_witness :
  (main (env_read_only scenario_A) world_with_input).1
  = Raised (Exception "PermissionError")
  /\ files (main (env_read_only scenario_A) world_with_input).2
     = files world_with_input.
Proof.
  destruct (open_failure_keeps_files (env_read_only scenario_A)
              world_with_input "PK" (doc_of scenario_A)
              (Exception "PermissionError") eq_refl eq_refl eq_refl)
    as (Hraise & Hfiles & _).
  exact (conj Hraise Hfiles).
Defined.

(** When the open succeeds and the write fails, the run ends with the
    exception of the write and nothing is rolled back: what the output held
    before is gone, the output now holds the part of the new text that
    reached it, which is a prefix of that text, and the handle is closed. *)
Theorem write_failure_truncates (E : Env) (w : World) (bytes : string)
    (doc : DocumentObj) (f : nat) (w1 : World) (e : exn) (n : nat) :
  files w !! input_name = Some bytes ->
  decode E bytes = Ok doc ->
  let data := str_join NL (text <$> paragraphs doc) in
  open_w E output_name (log (EvDecode input_name) w) = (Ok f, w1) ->
  write_fault E w1 output_name data = Some (e, n) ->
  (main E w).1 = Raised e
  /\ files (main E w).2 !! output_name = Some (String.substring 0 n data)
  /\ (exists rest, data = String.substring 0 n data +:+ rest)
  /\ handles (main E w).2 = handles w
  /\ console (main E w).2 = console w.
Proof.
  intros Hin Hdoc data Hopen Hwrite.
  rewrite open_w_run in Hopen.
  destruct (open_fault E _ output_name) as [e'|] eqn:Hof; [done |].
  injection Hopen as <- <-.
  assert (main E w
          = (Raised e,
             mkWorld (<[output_name := String.substring 0 n data]> (files w))
                     (handles w)
                     (events w ++ [EvDecode input_name;
                                   EvOpen output_name (fresh (dom (handles w)));
                                   EvWrite (fresh (dom (handles w))) data;
                                   EvClose (fresh (dom (handles w)))])))
    as Hrun.
  { rewrite main_run, Hin. cbv zeta. rewrite Hdoc, Hof.
    unfold data in *. cbn [files handles events log] in Hwrite |- *.
    by rewrite Hwrite. }
  rewrite Hrun. cbn [fst snd files handles].
  split; [done |]. split; [apply lookup_insert_eq |].
  split; [apply substring_prefix |]. split; [done |].
  erewrite console_app; [| done]. apply app_nil_r.
Qed.

Lemma write_failure_truncates_witness :
  files world_with_input !! output_name = Some "stale"
  /\ (main (env_disk_full scenario_A 3) world_with_input).1
     = Raised (Exception "OSError")
  /\ files (main (env_disk_full scenario_A 3) world_with_input).2
       !! output_name = Some "Tit".
Proof.
  split; [reflexivity |].
  destruct (write_failure_truncates (env_disk_full scenario_A 3)
              world_with_input "PK" (doc_of scenario_A) 0 _
              (Exception "OSError") 3 eq_refl eq_refl eq_refl eq_refl)
    as (Hraise & Hout & _).
  exact (conj Hraise Hout).
Defined.

(** A run that ends normally on a present input has done five things, in
    this order: called the decoder on the input, opened the output on a
    handle that was not in use, written the whole text in one write, closed
    that handle, and only then printed the success message. *)
Theorem success_trace (E : Env) (w w' : World) :
  is_Some (files w !! input_name) ->
  main E w = (Ok tt, w') ->
  exists f data,
    handles w !! f = None
    /\ files w' !! output_name = Some data
    /\ emitted (main E) w
       = [EvDecode input_name; EvOpen output_name f; EvWrite f data;
          EvClose f; EvPrint success_message].
Proof.
  intros [bytes Hin] Hrun.
  assert (emitted (main E) w = drop (length (events w)) (events w')) as ->
    by (unfold emitted; by rewrite Hrun).
  rewrite main_run, Hin in Hrun. cbv zeta in Hrun.
  destruct (decode E bytes) as [doc|e]; [| done].
  destruct (open_fault E _ output_name) as [e|]; [done |].
  destruct (write_fault E _ output_name _) as [[e n]|]; [done |].
  injection Hrun as <-.
  exists (fresh (dom (handles w))), (str_join NL (text <$> paragraphs doc)).
  split; [apply fresh_handle_free |]. cbn [files events].
  split; [apply lookup_insert_eq |]. by rewrite drop_app_length.
Qed.

Lemma success_trace_witness :
  exists f data,
    emitted (main (env_of scenario_A)) world_with_input
    = [EvDecode input_name; EvOpen output_name f; EvWrite f data;
       EvClose f; EvPrint success_message].
Proof.
  destruct (success_trace (env_of scenario_A) world_with_input
              (main (env_of scenario_A) world_with_input).2)
    as (f & data & _ & _ & Hem).
  - by eexists.
  - reflexivity.
  - exists f, data. exact Hem.
Defined.

(** A run prints a line exactly when it ends normally: a normal end has
    added one line to the console, a run that raised has added none. *)
Theorem prints_iff_returns (E : Env) (w : World) :
  match (main E w).1 with
  | Ok _ => exists line, console (main E w).2 = console w ++ [line]
  | Raised _ => console (main E w).2 = console w
  end.
Proof.
  rewrite main_run.
  destruct (files w !! input_name) as [bytes|].
  - cbv zeta. destruct (decode E bytes) as [doc|e].
    + destruct (open_fault E _ output_name) as [e|].
      * cbn [fst snd]. erewrite (console_app w); [| done]. apply app_nil_r.
      * destruct (write_fault E _ output_name _) as [[e n]|]; cbn [fst snd].
        -- erewrite (console_app w); [| done]. apply app_nil_r.
        -- exists success_message.
           erewrite (console_app w); [| reflexivity]. done.
    + cbn [fst snd]. erewrite (console_app w); [| done]. apply app_nil_r.
  - exists (not_found_message input_name). cbn [fst snd].
    erewrite (console_app w); [| reflexivity]. done.
Qed.

(** A run calls the decoder at most once, and only on the input path:
    once when the input exists, never when it does not, whatever happens
    afterwards. *)
Theorem decoder_called_once_if_present (E : Env) (w : World) :
  filter is_decode (emitted (main E) w)
  = match files w !! input_name with
    | Some _ => [EvDecode input_name]
    | None => []
    end.
Proof.
  unfold emitted. rewrite main_run.
  destruct (files w !! input_name) as [bytes|].
  - cbv zeta. destruct (decode E bytes) as [doc|e].
    + destruct (open_fault E _ output_name) as [e|].
      * cbn [snd events log]. by rewrite drop_app_length.
      * destruct (write_fault E _ output_name _) as [[e n]|];
          cbn [snd events]; by rewrite drop_app_length.
    + cbn [snd events log]. by rewrite drop_app_length.
  - cbn [snd events log]. by rewrite drop_app_length.
Qed.

(** A failed run does not stand in the way of a later one: whatever the
    first run did, when the decoder accepts the input and a second run
    from the world the first one left ends normally, the output holds
    exactly the joined text of the document. *)
Theorem rerun_recovers (E : Env) (w w2 : World) (bytes : string)
    (doc : DocumentObj) :
  files w !! input_name = Some bytes ->
  decode E bytes = Ok doc ->
  main E (main E w).2 = (Ok tt, w2) ->
  files w2 !! output_name = Some (str_join NL (text <$> paragraphs doc)).
Proof.
  intros Hin Hdoc Hrun2.
  assert (files (main E w).2 !! input_name = Some bytes) as Hin1.
  { rewrite main_other_files by apply names_differ. exact Hin. }
  destruct (main_ok_present E _ w2 bytes Hin1 Hrun2)
    as (doc' & f & Hdoc' & _ & _ & Hfiles & _).
  assert (doc' = doc) as -> by congruence.
  rewrite Hfiles. apply lookup_insert_eq.
Qed.

Lemma rerun_recovers_witness :
  (main (env_flaky scenario_A 3) world_with_input).1
  = Raised (Exception "OSError")
  /\ files (main (env_flaky scenario_A 3) world_with_input).2 !! output_name
     = Some "Tit"
  /\ files (main (env_flaky scenario_A 3)
                 (main (env_flaky scenario_A 3) world_with_input).2).2
       !! output_name
     = Some ("Title" +:+ NL +:+ NL +:+ "Body text.").
Proof.
  split; [reflexivity |]. split; [reflexivity |].
  apply (rerun_recovers (env_flaky scenario_A 3) world_with_input
           (main (env_flaky scenario_A 3)
                 (main (env_flaky scenario_A 3) world_with_input).2).2
           "PK" (doc_of scenario_A)); reflexivity.
Defined.
